(** * Dynamic-Random: the two Playwright verification scripts

    Shallow embedding of

      - [src/verification_script.py]                         ([run_verification])
      - [src/jules-scratch/verification/verify_refactor.py]  ([run])

    Both scripts are straight-line sequences of calls into the operating
    system and into Playwright's synchronous API.  A call either returns or
    raises a Python exception; which of the two happens is decided by the
    world outside the script (is the server up, does the selector ever
    match, is the disk writable).  The scripts are therefore embedded in a
    state-and-exception monad over a [World] record, parameterised by an
    environment [Env] that answers every fallible call.

    What is assumed of the libraries the scripts call:
      - [print] and [time.sleep] always return;
      - every other call may raise, and then has no effect on the disk;
      - [os.makedirs(p, exist_ok=True)] creates [p] with the directories
        above it, and accepts a [p] that is already there;
      - [page.screenshot(path=p)] writes the rendered image to [p], creating
        the missing directories above [p] (as Playwright's client does);
      - leaving [with sync_playwright()] is a call of its own; when it
        returns, Playwright's driver has been stopped and with it every
        browser the driver had launched (see [browser_running]). *)

From Stdlib Require Import ZArith Ascii String.
From stdpp Require Import base gmap strings list fin_maps.

Open Scope string_scope.
Open Scope list_scope.
Open Scope Z_scope.

(** ** Python values the scripts handle *)

(** A raised exception: its class name and [str(e)].  Only subclasses of
    [Exception] are modelled (an [OSError], Playwright's [Error] and
    [TimeoutError]); asynchronous [BaseException]s such as
    [KeyboardInterrupt] are outside the model. *)
Record exn : Type := Exn { exn_class : string; exn_msg : string }.

(** Either a returned value or a raised exception. *)
Inductive result (A : Type) : Type :=
| Returned (a : A)
| Raised (e : exn).
Global Arguments Returned {A} a.
Global Arguments Raised {A} e.

(** The objects the scripts hold.  Each script owns one of each, so a
    handle carries no data. *)
Inductive Playwright : Type := playwright_handle.
Inductive Browser : Type := browser_handle.
Inductive Page : Type := page_handle.

(** ** Calls that leave the script *)

Inductive call : Type :=
| OsMakedirs (path : string) (exist_ok : bool)   (* os.makedirs(path, exist_ok=..) *)
| PlaywrightEnter                                (* sync_playwright().__enter__() *)
| PlaywrightExit                                 (* sync_playwright().__exit__(..) *)
| ChromiumLaunch (headless : option bool)        (* p.chromium.launch(..) *)
| NewPage                                        (* browser.new_page() *)
| SetViewportSize (width height : Z)             (* page.set_viewport_size({..}) *)
| Goto (url : string)                            (* page.goto(url) *)
| WaitForSelector (selector : string)            (* page.wait_for_selector(sel) *)
| MouseMove (x y : Z)                            (* page.mouse.move(x, y) *)
| Screenshot (path : string)                     (* page.screenshot(path=..) *)
| BrowserClose                                   (* browser.close() *)
| PrintLine (line : string)                      (* print(line) *)
| Sleep (seconds : Z).                           (* time.sleep(seconds) *)

(** One line of the run's history: the call and how it ended
    ([None]: it returned, [Some e]: it raised [e]). *)
Definition entry : Type := call * option exn.

Global Instance exn_eq_dec : EqDecision exn.
Proof. solve_decision. Defined.
Global Instance call_eq_dec : EqDecision call.
Proof. solve_decision. Defined.

Definition returned (c : call) : entry := (c, None).
Definition raised (c : call) (e : exn) : entry := (c, Some e).

(** ** The world *)

Record World : Type := mkWorld {
  w_dirs : gset string;                  (* directories on disk *)
  w_files : gmap string (list Byte.byte);(* regular files on disk *)
  w_log : list entry                     (* every call so far, oldest first *)
}.

(** The environment answers a fallible call, given everything that happened
    before it: [fault] says whether the call raises, [capture] is the image
    the browser renders for a screenshot. *)
Record Env : Type := mkEnv {
  fault : list entry → call → option exn;
  capture : list entry → list Byte.byte
}.

(** How a process ended: its exit status, the last line of the traceback
    on stderr when an exception reached the top level, and the world it
    leaves behind. *)
Record Exit : Type := mkExit {
  exit_status : Z;
  exit_traceback : option string;
  exit_world : World
}.

(** ** Paths *)

(** The directories [os.makedirs(p)] walks through, outermost first:
    every prefix of [p] that ends at a component boundary.
    [seen] is the prefix read so far, [open] tells whether it ends inside
    a component. *)
Fixpoint path_prefixes_from (seen : string) (open : bool) (p : string) : list string :=
  match p with
  | EmptyString => if open then [seen] else []
  | String c p' =>
      if Ascii.eqb c ("/"%char : ascii)
      then (if open then [seen] else []) ++ path_prefixes_from (seen +:+ "/") false p'
      else path_prefixes_from (seen +:+ String c EmptyString) true p'
  end.

Definition path_prefixes (p : string) : list string := path_prefixes_from "" false p.

(** The directories above a file, outermost first, and the innermost of
    them ([os.path.dirname] for a path with a directory part). *)
Definition parent_dirs (p : string) : list string := removelast (path_prefixes p).
Definition parent_dir (p : string) : string := List.last (parent_dirs p) "".

(** ** The monad: state over [World], exceptions as [Raised] *)

Definition M (A : Type) : Type := World → result A * World.

Global Instance M_ret : MRet M := λ A a w, (Returned a, w).

Global Instance M_bind : MBind M := λ A B k m w,
  match m w with
  | (Returned a, w') => k a w'
  | (Raised e, w') => (Raised e, w')
  end.

Global Instance M_throw : MThrow exn M := λ A e w, (Raised e, w).

(** [try: body / except Exception as e: handler e]. *)
Definition try_except {A} (body : M A) (handler : exn → M A) : M A := λ w,
  match body w with
  | (Returned a, w') => (Returned a, w')
  | (Raised e, w') => handler e w'
  end.

(** [try: body / finally: fin].  [fin] runs on both exits; when it raises,
    its exception replaces the outcome of [body]. *)
Definition try_finally {A} (body : M A) (fin : M unit) : M A := λ w,
  match body w with
  | (r, w') =>
      match fin w' with
      | (Returned _, w'') => (r, w'')
      | (Raised e, w'') => (Raised e, w'')
      end
  end.

(** [try: body / except Exception as e: handler e / finally: fin]. *)
Definition try_except_finally {A} (body : M A) (handler : exn → M A) (fin : M unit) : M A :=
  try_finally (try_except body handler) fin.

(** [with mgr as x: body x], for a manager whose [__exit__] does not
    swallow exceptions: a failing [__enter__] skips both the body and
    [__exit__]; otherwise [__exit__] runs on both exits of the body. *)
Definition with_as {R A} (enter : M R) (exit : M unit) (body : R → M A) : M A :=
  x ← enter; try_finally (body x) exit.

(** ** Changes to the world *)

Definition log_entry (en : entry) (w : World) : World :=
  mkWorld (w_dirs w) (w_files w) (w_log w ++ [en]).

Definition add_dirs (ds : list string) (w : World) : World :=
  mkWorld (list_to_set ds ∪ w_dirs w) (w_files w) (w_log w).

Definition write_file (p : string) (data : list Byte.byte) (w : World) : World :=
  mkWorld (w_dirs w) (<[p := data]> (w_files w)) (w_log w).

(** ** The calls, answered by an environment *)

Section Calls.
Variable env : Env.

(** A call into the outside world: the environment decides whether it
    raises; when it returns, [effect] is what it did to the disk. *)
Definition perform (c : call) (effect : World → World) : M unit := λ w,
  match fault env (w_log w) c with
  | Some e => (Raised e, log_entry (raised c e) w)
  | None => (Returned (), log_entry (returned c) (effect w))
  end.

(** [print] and [time.sleep] always return. *)
Definition perform_total (c : call) : M unit := λ w,
  (Returned (), log_entry (returned c) w).

(** [os.makedirs(path, exist_ok)]: creates [path] and every missing
    directory above it.  An existing [path] is an error unless
    [exist_ok]. *)
Definition os_makedirs (path : string) (exist_ok : bool) : M unit := λ w,
  let c := OsMakedirs path exist_ok in
  match fault env (w_log w) c with
  | Some e => (Raised e, log_entry (raised c e) w)
  | None =>
      if decide (path ∈ w_dirs w)
      then if exist_ok
           then (Returned (), log_entry (returned c) w)
           else let e := Exn "FileExistsError" path in
                (Raised e, log_entry (raised c e) w)
      else (Returned (), log_entry (returned c) (add_dirs (path_prefixes path) w))
  end.

Definition print (line : string) : M unit := perform_total (PrintLine line).
Definition time_sleep (seconds : Z) : M unit := perform_total (Sleep seconds).

Definition sync_playwright_enter : M Playwright :=
  perform PlaywrightEnter id ;; mret playwright_handle.
Definition sync_playwright_exit : M unit := perform PlaywrightExit id.

Definition chromium_launch (p : Playwright) (headless : option bool) : M Browser :=
  perform (ChromiumLaunch headless) id ;; mret browser_handle.
Definition new_page (b : Browser) : M Page :=
  perform NewPage id ;; mret page_handle.
Definition set_viewport_size (pg : Page) (width height : Z) : M unit :=
  perform (SetViewportSize width height) id.
Definition goto (pg : Page) (url : string) : M unit := perform (Goto url) id.
Definition wait_for_selector (pg : Page) (selector : string) : M unit :=
  perform (WaitForSelector selector) id.
Definition mouse_move (pg : Page) (x y : Z) : M unit := perform (MouseMove x y) id.

(** [page.screenshot(path=p)]: Playwright renders the page, creates the
    missing directories above [p] and writes the image to [p]. *)
Definition screenshot (pg : Page) (p : string) : M unit := λ w,
  perform (Screenshot p)
          (λ w', write_file p (capture env (w_log w)) (add_dirs (parent_dirs p) w')) w.

Definition browser_close (b : Browser) : M unit := perform BrowserClose id.

(** ** src/verification_script.py *)

Definition verification_dir : string := "/home/jules/verification".
Definition screenshot_path : string := "/home/jules/verification/background_check.png".

Definition run_verification : M unit :=
  os_makedirs verification_dir true ;;
  with_as sync_playwright_enter sync_playwright_exit (λ p,
    browser ← chromium_launch p (Some true);
    page ← new_page browser;
    set_viewport_size page 1280 720 ;;
    try_except_finally
      (print "Navigating to http://localhost:8000" ;;
       goto page "http://localhost:8000" ;;
       wait_for_selector page "#background-canvas" ;;
       print "Background canvas found" ;;
       time_sleep 2 ;;
       mouse_move page 640 360 ;;
       time_sleep 1 ;;
       mouse_move page 700 400 ;;
       time_sleep 1 ;;
       screenshot page screenshot_path ;;
       print ("Screenshot saved to " +:+ screenshot_path))
      (λ e, print ("Error: " +:+ exn_msg e))
      (browser_close browser)).

(** ** src/jules-scratch/verification/verify_refactor.py *)

Definition refactor_screenshot_path : string :=
  "jules-scratch/verification/verification.png".

Definition run : M unit :=
  with_as sync_playwright_enter sync_playwright_exit (λ p,
    browser ← chromium_launch p None;
    page ← new_page browser;
    goto page "http://localhost:8000" ;;
    wait_for_selector page "#particles-js canvas" ;;
    screenshot page refactor_screenshot_path ;;
    browser_close browser).

(** ** [if __name__ == "__main__": ...]

    The interpreter runs the script's entry point.  A normal return ends
    the process with status 0; an exception that reaches the top level is
    reported as a traceback on stderr (its last line is kept) and ends the
    process with status 1. *)
Definition python_main (entry_point : M unit) (w : World) : Exit :=
  match entry_point w with
  | (Returned _, w') => mkExit 0 None w'
  | (Raised e, w') => mkExit 1 (Some (exn_class e +:+ ": " +:+ exn_msg e)) w'
  end.

Definition verification_script_main : World → Exit := python_main run_verification.
Definition verify_refactor_main : World → Exit := python_main run.
End Calls.

(** ** What a run lets us observe *)

Definition result_of {A} (m : M A) (w : World) : result A := (m w).1.
Definition world_after {A} (m : M A) (w : World) : World := (m w).2.

(** The calls made by the run itself, oldest first, with their outcomes. *)
Definition entries_of {A} (m : M A) (w : World) : list entry :=
  drop (length (w_log w)) (w_log (world_after m w)).

(** What was printed on stdout: the strings passed to [print], one per
    call, oldest first.  A string may span several lines. *)
Fixpoint stdout_of (l : list entry) : list string :=
  match l with
  | [] => []
  | (PrintLine s, _) :: l' => s :: stdout_of l'
  | _ :: l' => stdout_of l'
  end.

(** An exception left the function. *)
Definition propagates {A} (r : result A) : Prop := ∃ e, r = Raised e.

(** [mentions needle hay]: [needle] occurs somewhere in [hay]. *)
Fixpoint mentions (needle hay : string) : bool :=
  String.prefix needle hay ||
  match hay with
  | EmptyString => false
  | String _ hay' => mentions needle hay'
  end.

(** The steps between opening the page and closing the browser: the calls
    inside the [try] block of [run_verification]. *)
Definition is_step (c : call) : bool :=
  match c with
  | Goto _ | WaitForSelector _ | Sleep _ | MouseMove _ _ | Screenshot _ => true
  | _ => false
  end.

Definition steps_of (l : list entry) : list entry :=
  List.filter (λ en, is_step en.1) l.

(** The steps in the order the two scripts list them. *)
Definition run_verification_steps : list call :=
  [ Goto "http://localhost:8000";
    WaitForSelector "#background-canvas";
    Sleep 2;
    MouseMove 640 360; Sleep 1; MouseMove 700 400; Sleep 1;
    Screenshot screenshot_path ].

Definition run_steps : list call :=
  [ Goto "http://localhost:8000";
    WaitForSelector "#particles-js canvas";
    Screenshot refactor_screenshot_path ].

(** [in_order script l]: the logged steps [l] go through [script] in
    order and without gaps: a step is begun exactly when the step before it
    has returned, and the steps end either with the last step of the script
    or with the first step that raises. *)
Inductive in_order : list call → list entry → Prop :=
| in_order_done :
    in_order [] []
| in_order_raised c e script :
    in_order (c :: script) [raised c e]
| in_order_returned c script l :
    in_order script l → in_order (c :: script) (returned c :: l).

(** The calls before the first step: creating the directory, entering
    Playwright, launching the browser, opening the page and sizing it. *)
Definition is_setup (c : call) : bool :=
  match c with
  | OsMakedirs _ _ | PlaywrightEnter | ChromiumLaunch _ | NewPage
  | SetViewportSize _ _ => true
  | _ => false
  end.



(** Two worlds whose logs continue [b1] and [b2] by the same entries. *)
Definition same_since (b1 b2 : list entry) (w1 w2 : World) : Prop :=
  ∃ l, w_log w1 = b1 ++ l ∧ w_log w2 = b2 ++ l.

(** Two environments that give the same answers after [b1] and [b2]. *)
Definition answers_alike (env1 env2 : Env) (b1 b2 : list entry) : Prop :=
  ∀ l c, fault env1 (b1 ++ l) c = fault env2 (b2 ++ l) c.

(** Two computations that, started in such worlds, end the same way and
    make the same calls with the same outcomes. *)
Definition sim {A} (b1 b2 : list entry) (m1 m2 : M A) : Prop :=
  ∀ w1 w2, same_since b1 b2 w1 w2 →
    (m1 w1).1 = (m2 w2).1 ∧ same_since b1 b2 (m1 w1).2 (m2 w2).2.

(** ** Concrete worlds and environments *)

Definition empty_world : World := mkWorld ∅ ∅ [].

(** The first bytes of a PNG file, standing for a rendered image. *)
Definition png_image : list Byte.byte := [Byte.x89; Byte.x50; Byte.x4e; Byte.x47].

(** Everything works: the server is up, the selector matches, the disk is
    writable. *)
Definition all_up : Env := mkEnv (λ _ _, None) (λ _, png_image).

(** Nothing listens on localhost:8000: [page.goto] raises Playwright's
    [Error]. *)
Definition connection_refused : exn :=
  Exn "Error" "net::ERR_CONNECTION_REFUSED at http://localhost:8000/".

Definition server_down : Env :=
  mkEnv (λ _ c, match c with Goto _ => Some connection_refused | _ => None end)
        (λ _, png_image).

(** No browser is installed: [chromium.launch] raises. *)
Definition executable_missing : exn :=
  Exn "Error" "Executable doesn't exist at /root/.cache/ms-playwright/chromium".

Definition no_browser : Env :=
  mkEnv (λ _ c, match c with ChromiumLaunch _ => Some executable_missing | _ => None end)
        (λ _, png_image).



(** The home directory is not writable: [os.makedirs] raises. *)
Definition permission_denied : exn :=
  Exn "PermissionError" "[Errno 13] Permission denied: '/home/jules'".

Definition makedirs_denied : Env :=
  mkEnv (λ _ c, match c with OsMakedirs _ _ => Some permission_denied | _ => None end)
        (λ _, png_image).

(** ** Further observations *)

(** The line [run_verification] prints after a capture. *)
Definition saved_line : string := "Screenshot saved to " +:+ screenshot_path.

(** [starts_with pre s]: the string [s] begins with [pre]. *)
Fixpoint starts_with (pre s : string) : bool :=
  match pre with
  | EmptyString => true
  | String a pre' =>
      match s with
      | EmptyString => false
      | String b s' => Ascii.eqb a b && starts_with pre' s'
      end
  end.

(** A line printed by the [except] handler of [run_verification]. *)
Definition is_error_line (s : string) : bool := starts_with "Error: " s.

(** The seconds spent in [time.sleep]. *)
Fixpoint slept (l : list entry) : Z :=
  match l with
  | [] => 0
  | (Sleep s, _) :: l' => s + slept l'
  | _ :: l' => slept l'
  end.

Definition is_launch (c : call) : bool :=
  match c with ChromiumLaunch _ => true | _ => false end.
Definition is_new_page (c : call) : bool :=
  match c with NewPage => true | _ => false end.
Definition is_close (c : call) : bool :=
  match c with BrowserClose => true | _ => false end.

(** How often a kind of call was made. *)
Definition count_calls (kind : call → bool) (l : list entry) : nat :=
  length (List.filter (λ en, kind en.1) l).

(** The selector never matches: [page.wait_for_selector] raises
    Playwright's [TimeoutError]. *)
Definition selector_timeout : exn :=
  Exn "TimeoutError" "Timeout 30000ms exceeded.".

Definition no_canvas : Env :=
  mkEnv (λ _ c, match c with WaitForSelector _ => Some selector_timeout | _ => None end)
        (λ _, png_image).

(** ** Weakest preconditions for the monad *)

Definition wp {A} (m : M A) (w : World) (Q : result A → World → Prop) : Prop :=
  Q (m w).1 (m w).2.

Lemma wp_ret {A} (a : A) w Q : Q (Returned a) w → wp (mret a) w Q.
Proof. done. Qed.

Lemma wp_bind {A B} (m : M A) (k : A → M B) w Q :
  wp m w (λ r w',
    match r with
    | Returned a => wp (k a) w' Q
    | Raised e => Q (Raised e) w'
    end) →
  wp (m ≫= k) w Q.
Proof.
  unfold wp, mbind, M_bind. destruct (m w) as [[a|e] w']; done.
Qed.

Lemma wp_try_except {A} (body : M A) handler w Q :
  wp body w (λ r w',
    match r with
    | Returned a => Q (Returned a) w'
    | Raised e => wp (handler e) w' Q
    end) →
  wp (try_except body handler) w Q.
Proof.
  unfold wp, try_except. destruct (body w) as [[a|e] w']; done.
Qed.

Lemma wp_try_finally {A} (body : M A) fin w Q :
  wp body w (λ r w',
    wp fin w' (λ rf w'',
      match rf with
      | Returned _ => Q r w''
      | Raised e => Q (Raised e) w''
      end)) →
  wp (try_finally body fin) w Q.
Proof.
  unfold wp, try_finally. destruct (body w) as [r w']; simpl.
  destruct (fin w') as [[[]|e] w'']; done.
Qed.

Section WpCalls.
Variable env : Env.

Lemma wp_perform c effect w (Q : result unit → World → Prop) :
  (∀ e, fault env (w_log w) c = Some e → Q (Raised e) (log_entry (raised c e) w)) →
  (fault env (w_log w) c = None → Q (Returned ()) (log_entry (returned c) (effect w))) →
  wp (perform env c effect) w Q.
Proof.
  intros Hraise Hret. unfold wp, perform.
  destruct (fault env (w_log w) c) as [e|] eqn:Hf; simpl; auto.
Qed.

Lemma wp_perform_total c w (Q : result unit → World → Prop) :
  Q (Returned ()) (log_entry (returned c) w) → wp (perform_total c) w Q.
Proof. done. Qed.

(** [os.makedirs(path, exist_ok=True)] either raises what the environment
    makes it raise, or returns with [path] on disk; a directory that was
    already there is left alone. *)
Lemma wp_os_makedirs path w (Q : result unit → World → Prop) :
  let c := OsMakedirs path true in
  (∀ e, fault env (w_log w) c = Some e → Q (Raised e) (log_entry (raised c e) w)) →
  (fault env (w_log w) c = None → path ∈ w_dirs w →
     Q (Returned ()) (log_entry (returned c) w)) →
  (fault env (w_log w) c = None → path ∉ w_dirs w →
     Q (Returned ()) (log_entry (returned c) (add_dirs (path_prefixes path) w))) →
  wp (os_makedirs env path true) w Q.
Proof.
  intros c Hraise Hthere Hnew. unfold wp, os_makedirs. fold c.
  destruct (fault env (w_log w) c) as [e|] eqn:Hf; simpl; auto.
  destruct (decide (path ∈ w_dirs w)); simpl; auto.
Qed.

(** The same call for a reader who does not look at the directories: it
    leaves the files and the log of earlier calls alone. *)
Lemma wp_os_makedirs_frame path w (Q : result unit → World → Prop) :
  let c := OsMakedirs path true in
  (∀ e, fault env (w_log w) c = Some e → Q (Raised e) (log_entry (raised c e) w)) →
  (fault env (w_log w) c = None →
     ∀ w1, w_log w1 = w_log w → w_files w1 = w_files w →
       Q (Returned ()) (log_entry (returned c) w1)) →
  wp (os_makedirs env path true) w Q.
Proof.
  intros c Hraise Hret. apply wp_os_makedirs; auto.
Qed.

Lemma wp_screenshot pg p w (Q : result unit → World → Prop) :
  let c := Screenshot p in
  (∀ e, fault env (w_log w) c = Some e → Q (Raised e) (log_entry (raised c e) w)) →
  (fault env (w_log w) c = None →
     Q (Returned ())
       (log_entry (returned c)
          (write_file p (capture env (w_log w)) (add_dirs (parent_dirs p) w)))) →
  wp (screenshot env pg p) w Q.
Proof.
  intros c Hraise Hret. unfold wp, screenshot, perform. fold c.
  destruct (fault env (w_log w) c) as [e|] eqn:Hf; simpl; auto.
Qed.
End WpCalls.

(** One step of symbolic execution; [mk] is the rule for [os.makedirs]. *)
Ltac wp_step mk :=
  lazymatch goal with
  | |- wp (mret _) _ _ => apply wp_ret
  | |- wp (_ ≫= _) _ _ => apply wp_bind
  | |- wp (try_except_finally _ _ _) _ _ => unfold try_except_finally
  | |- wp (try_finally _ _) _ _ => apply wp_try_finally
  | |- wp (try_except _ _) _ _ => apply wp_try_except
  | |- wp (with_as _ _ _) _ _ => unfold with_as
  | |- wp (os_makedirs _ _ true) _ _ => mk
  | |- wp (screenshot _ _ _) _ _ => apply wp_screenshot; [intros ? ? | intros ?]
  | |- wp (perform _ _ _) _ _ => apply wp_perform; [intros ? ? | intros ?]
  | |- wp (perform_total _) _ _ => apply wp_perform_total
  | |- wp (print _) _ _ => unfold print
  | |- wp (time_sleep _) _ _ => unfold time_sleep
  | |- wp (sync_playwright_enter _) _ _ => unfold sync_playwright_enter
  | |- wp (sync_playwright_exit _) _ _ => unfold sync_playwright_exit
  | |- wp (chromium_launch _ _ _) _ _ => unfold chromium_launch
  | |- wp (new_page _ _) _ _ => unfold new_page
  | |- wp (set_viewport_size _ _ _ _) _ _ => unfold set_viewport_size
  | |- wp (goto _ _ _) _ _ => unfold goto
  | |- wp (wait_for_selector _ _ _) _ _ => unfold wait_for_selector
  | |- wp (mouse_move _ _ _ _) _ _ => unfold mouse_move
  | |- wp (browser_close _ _) _ _ => unfold browser_close
  | |- wp (run_verification _) _ _ => unfold run_verification
  | |- wp (run _) _ _ => unfold run
  end.

Ltac mk_exact := apply wp_os_makedirs; [intros ? ? | intros ? ? | intros ? ?].
Ltac mk_frame :=
  apply wp_os_makedirs_frame;
  [ intros ? ?
  | let Hlog := fresh "Hlog" in
    let Hfiles := fresh "Hfiles" in
    intros ? ? Hlog Hfiles ].

(** Run the script on every path, distinguishing the two ways
    [os.makedirs] can return ([wp_run]) or not ([wp_run_frame]). *)
Ltac wp_run := repeat (wp_step mk_exact; cbv beta iota).
Ltac wp_run_frame := repeat (wp_step mk_frame; cbv beta iota).

(** Turn a goal about the observations of [m w] into a [wp] goal. *)
Ltac wp_start m w :=
  unfold entries_of, result_of, world_after;
  pattern (m w).1, (m w).2;
  lazymatch goal with
  | |- ?Q _ _ => change (wp m w Q)
  end.

(** After a run the log is the old log followed by the run's entries:
    bring it into that shape and drop the old part. *)
Ltac log_norm :=
  cbn [w_log w_dirs w_files log_entry add_dirs write_file id];
  repeat match goal with
         | Hlog : w_log ?w1 = w_log _, Hfiles : w_files ?w1 = w_files _ |- _ =>
             rewrite ?Hlog, ?Hfiles; clear Hlog Hfiles
         end;
  rewrite <- ?app_assoc; cbn [app];
  rewrite ?drop_app_length.

(** Membership in an explicit list of entries, case by case. *)
Ltac elem_cases H :=
  repeat first
    [ apply elem_of_nil in H; contradiction
    | apply elem_of_cons in H as [H|H]; [try discriminate H|] ].

(** Find an entry in an explicit list. *)
Ltac elem_find :=
  repeat first [ apply list_elem_of_here | apply list_elem_of_further ].

(** ** Splitting an explicit log around one of its entries *)

Lemma nil_split_inv {A} (l1 l2 : list A) (y : A) : [] = l1 ++ y :: l2 → False.
Proof. destruct l1; discriminate. Qed.

Lemma cons_split_inv {A} (x y : A) (l l1 l2 : list A) :
  x :: l = l1 ++ y :: l2 →
  (l1 = [] ∧ x = y ∧ l2 = l) ∨ (∃ l1', l1 = x :: l1' ∧ l = l1' ++ y :: l2).
Proof.
  destruct l1 as [|z l1']; simpl; intros Heq; injection Heq as -> ->; eauto.
Qed.

(** Every way an explicit list [H : x1 :: .. :: xn :: [] = l1 ++ y :: l2]
    can be split; the positions where [xi = y] is absurd are dropped. *)
Ltac split_cases H :=
  repeat first
    [ apply nil_split_inv in H; contradiction
    | let l1' := fresh "l1'" in
      apply cons_split_inv in H as [(-> & H & ->) | (l1' & -> & H)];
      [try discriminate H|] ].

(** ** The directories the scripts touch *)

Lemma path_prefixes_verification_dir :
  path_prefixes verification_dir = ["/home"; "/home/jules"; verification_dir].
Proof. reflexivity. Qed.

Lemma parent_dirs_screenshot_path :
  parent_dirs screenshot_path = path_prefixes verification_dir.
Proof. reflexivity. Qed.

Lemma parent_dir_screenshot_path : parent_dir screenshot_path = verification_dir.
Proof. reflexivity. Qed.

Lemma verification_dir_created (D : gset string) :
  verification_dir ∈ (list_to_set (path_prefixes verification_dir) ∪ D : gset string).
Proof. rewrite path_prefixes_verification_dir. set_solver. Qed.

(** The front of an explicit list, without its last [n] entries. *)
Ltac list_front n L :=
  lazymatch n with
  | O => L
  | S ?n' =>
      let rec front L :=
        lazymatch L with
        | [_] => constr:(@nil entry)
        | ?x :: ?r => let i := front r in constr:(x :: i)
        end in
      let L' := front L in list_front n' L'
  end.

(** Solve [∃ l .., L = l ++ tail] for an explicit [L] whose tail has [n]
    entries. *)
Ltac split_tail n :=
  lazymatch goal with
  | |- ∃ l, _ =>
      lazymatch goal with
      | |- context [?L = _ ++ _] =>
          let i := list_front n L in exists i
      end
  end.

(** ** C1: which errors are caught *)

(** C1, the claim as stated fails: without an installed browser
    [chromium.launch] raises, and the exception leaves [run_verification]
    uncaught and unlogged; with the server down [page.goto] raises, and the
    exception leaves [run] uncaught and unlogged. *)
Lemma errors_propagate_counterexample :
  result_of (run_verification no_browser) empty_world = Raised executable_missing ∧
  stdout_of (entries_of (run_verification no_browser) empty_world) = [] ∧
  result_of (run server_down) empty_world = Raised connection_refused ∧
  stdout_of (entries_of (run server_down) empty_world) = [].
Proof. vm_compute. done. Qed.

(** C1, amended.  In [run_verification] an error raised by a step of the
    [try] block (navigation, selector wait, pointer move, capture) is caught
    there: the next call prints ["Error: "] followed by the exception's
    message, then the browser is closed and Playwright is left, and unless
    one of these two raises the function returns normally.  An error raised
    before the [try] block ([os.makedirs], entering Playwright, the launch,
    [new_page], [set_viewport_size]) is not caught: it leaves the function
    and nothing is printed.  [run] catches nothing: whatever raises, an
    exception leaves the function and nothing is printed. *)
Theorem errors_caught_in_try_block (env : Env) (w : World) :
  (∀ c e, is_step c = true → raised c e ∈ entries_of (run_verification env) w →
     (∃ l oc ox,
        entries_of (run_verification env) w =
          l ++ [ raised c e; returned (PrintLine ("Error: " +:+ exn_msg e));
                 (BrowserClose, oc); (PlaywrightExit, ox) ] ∧
        (oc = None → ox = None →
           result_of (run_verification env) w = Returned ()))) ∧
  (∀ c e,
     c ∈ [ OsMakedirs verification_dir true; PlaywrightEnter;
           ChromiumLaunch (Some true); NewPage; SetViewportSize 1280 720 ] →
     raised c e ∈ entries_of (run_verification env) w →
     propagates (result_of (run_verification env) w) ∧
     stdout_of (entries_of (run_verification env) w) = []) ∧
  (∀ c e, raised c e ∈ entries_of (run env) w →
     propagates (result_of (run env) w) ∧
     stdout_of (entries_of (run env) w) = []).
Proof.
  split; [|split].
  - wp_start (run_verification env) w.
    wp_run_frame; log_norm.
    all: intros c e' Hstep Hin; elem_cases Hin.
    all: injection Hin as -> ->; try discriminate Hstep.
    all: split_tail 4%nat; eexists _, _; split; [reflexivity|].
    all: intros; congruence.
  - wp_start (run_verification env) w.
    wp_run_frame; log_norm.
    all: intros c e' Hc Hin; elem_cases Hin.
    all: injection Hin as -> ->; elem_cases Hc.
    all: split; [eexists; reflexivity | reflexivity].
  - wp_start (run env) w.
    wp_run_frame; log_norm.
    all: intros c e' Hin; elem_cases Hin.
    all: split; [eexists; reflexivity | reflexivity].
Qed.

(** C1 at work: with the server down, the error of [page.goto] is caught and
    logged by [run_verification]. *)
Lemma errors_caught_in_try_block_witness :
  ∃ l oc ox,
    entries_of (run_verification server_down) empty_world =
      l ++ [ raised (Goto "http://localhost:8000") connection_refused;
             returned (PrintLine ("Error: " +:+ exn_msg connection_refused));
             (BrowserClose, oc); (PlaywrightExit, ox) ] ∧
    (oc = None → ox = None →
       result_of (run_verification server_down) empty_world = Returned ()).
Proof.
  destruct (errors_caught_in_try_block server_down empty_world) as [Hcaught _].
  apply Hcaught; [reflexivity|]. vm_compute. elem_find.
Defined.

(** ** C2: releasing the browser *)



(** ** C3: the order of the steps *)

(** C3.  In every run the steps are taken strictly in the fixed order
    navigate, wait for the readiness selector, settling delay, pointer
    moves, capture, then browser close.  Unless one of the calls before the
    first step raised, the logged steps go through the script's list in
    order and without gaps, each begun exactly when the one before it has
    returned, up to the last step or the first one that raises; in
    [run_verification] [browser.close()] then follows all of them, in [run]
    it follows when all of them have returned.  When a call before the first
    step raised, no step is taken.  And whenever a screenshot is taken, the
    wait for the readiness selector has returned before it. *)
Theorem steps_in_fixed_order (env : Env) (w : World) :
  (((∀ c e, raised c e ∈ entries_of (run_verification env) w → is_setup c = false) →
      in_order run_verification_steps
        (steps_of (entries_of (run_verification env) w)) ∧
      ∃ l oc ox,
        entries_of (run_verification env) w
          = l ++ [(BrowserClose, oc); (PlaywrightExit, ox)] ∧
        steps_of l = steps_of (entries_of (run_verification env) w)) ∧
   (∀ c e, raised c e ∈ entries_of (run_verification env) w → is_setup c = true →
      steps_of (entries_of (run_verification env) w) = [] ∧
      ∀ o, (BrowserClose, o) ∉ entries_of (run_verification env) w) ∧
   (∀ l1 p o l2,
      entries_of (run_verification env) w = l1 ++ (Screenshot p, o) :: l2 →
      returned (WaitForSelector "#background-canvas") ∈ l1)) ∧
  (((∀ c e, raised c e ∈ entries_of (run env) w → is_setup c = false) →
      in_order run_steps (steps_of (entries_of (run env) w))) ∧
   (∀ c e, raised c e ∈ entries_of (run env) w → is_setup c = true →
      steps_of (entries_of (run env) w) = []) ∧
   (steps_of (entries_of (run env) w) = returned <$> run_steps →
      ∃ l oc ox,
        entries_of (run env) w = l ++ [(BrowserClose, oc); (PlaywrightExit, ox)] ∧
        steps_of l = steps_of (entries_of (run env) w)) ∧
   (∀ l1 o l2, entries_of (run env) w = l1 ++ (BrowserClose, o) :: l2 →
      steps_of l1 = returned <$> run_steps ∧ steps_of l2 = []) ∧
   (∀ l1 p o l2, entries_of (run env) w = l1 ++ (Screenshot p, o) :: l2 →
      returned (WaitForSelector "#particles-js canvas") ∈ l1)).
Proof.
  split; [split; [|split] | split; [|split; [|split; [|split]]]].
  - wp_start (run_verification env) w.
    wp_run_frame; log_norm; intros Hset.
    all: first
      [ solve [ split;
                [ repeat constructor
                | split_tail 2%nat; eexists _, _; split; reflexivity ] ]
      | exfalso;
        match goal with
        | e : exn |- _ =>
            solve [ specialize (Hset _ e ltac:(elem_find)); discriminate Hset ]
        end ].
  - wp_start (run_verification env) w.
    wp_run_frame; log_norm; intros c e' Hin Hset; elem_cases Hin.
    all: injection Hin as -> ->; try discriminate Hset.
    all: split; [reflexivity | intros o' Hin'; elem_cases Hin'].
  - wp_start (run_verification env) w.
    wp_run_frame; log_norm; intros l1 p o l2 Hsplit; split_cases Hsplit.
    all: elem_find.
  - wp_start (run env) w.
    wp_run_frame; log_norm; intros Hset.
    all: first
      [ solve [ repeat constructor ]
      | exfalso;
        match goal with
        | e : exn |- _ =>
            solve [ specialize (Hset _ e ltac:(elem_find)); discriminate Hset ]
        end ].
  - wp_start (run env) w.
    wp_run_frame; log_norm; intros c e' Hin Hset; elem_cases Hin.
    all: injection Hin as -> ->; try discriminate Hset.
    all: reflexivity.
  - wp_start (run env) w.
    wp_run_frame; log_norm; intros Hall; try discriminate Hall.
    all: split_tail 2%nat; eexists _, _; split; reflexivity.
  - wp_start (run env) w.
    wp_run_frame; log_norm; intros l1 o l2 Hsplit; split_cases Hsplit.
    all: split; reflexivity.
  - wp_start (run env) w.
    wp_run_frame; log_norm; intros l1 p o l2 Hsplit; split_cases Hsplit.
    all: elem_find.
Qed.

(** C3 at work: when the selector never matches, [run_verification]
    navigates, waits, and goes straight to closing the browser; when
    everything is up, [run] takes its three steps and then closes. *)
Lemma steps_in_fixed_order_witness :
  (in_order run_verification_steps
     (steps_of (entries_of (run_verification no_canvas) empty_world)) ∧
   ∃ l oc ox,
     entries_of (run_verification no_canvas) empty_world
       = l ++ [(BrowserClose, oc); (PlaywrightExit, ox)] ∧
     steps_of l = steps_of (entries_of (run_verification no_canvas) empty_world)) ∧
  in_order run_steps (steps_of (entries_of (run all_up) empty_world)).
Proof.
  destruct (steps_in_fixed_order no_canvas empty_world) as [(Hrv & _) _].
  destruct (steps_in_fixed_order all_up empty_world) as [_ (Hrun & _)].
  split.
  - apply Hrv. intros c e Hin. vm_compute in Hin. elem_cases Hin.
    injection Hin as -> _. reflexivity.
  - apply Hrun. intros c e Hin. vm_compute in Hin. elem_cases Hin.
Defined.

(** ** C4: a failing navigation *)

(** C4, the claim as stated fails: with the server down [run_verification]
    returns normally, and all it reports are two lines on stdout, neither of
    which names an error kind [NavigationError]; [run] lets Playwright's own
    exception through, whose class is not [NavigationError] either. *)
Lemma navigation_error_kind_counterexample :
  raised (Goto "http://localhost:8000") connection_refused
    ∈ entries_of (run_verification server_down) empty_world ∧
  result_of (run_verification server_down) empty_world = Returned () ∧
  stdout_of (entries_of (run_verification server_down) empty_world) =
    [ "Navigating to http://localhost:8000";
      "Error: net::ERR_CONNECTION_REFUSED at http://localhost:8000/" ] ∧
  (∀ line, line ∈ stdout_of (entries_of (run_verification server_down) empty_world) →
     mentions "NavigationError" line = false) ∧
  result_of (run server_down) empty_world = Raised connection_refused ∧
  exn_class connection_refused ≠ "NavigationError".
Proof.
  split; [|split; [|split; [|split; [|split]]]].
  - vm_compute. elem_find.
  - vm_compute. reflexivity.
  - vm_compute. reflexivity.
  - intros line Hin. vm_compute in Hin. elem_cases Hin; subst line; reflexivity.
  - vm_compute. reflexivity.
  - discriminate.
Qed.

(** C4, amended.  When the navigation raises, neither script reaches the
    capture: no screenshot call is made and the files on disk are exactly
    those from before the run.  [run_verification] reports the failure by
    printing ["Error: "] followed by the exception's message, and returns
    normally once the browser is closed and Playwright is left; [run] prints
    nothing and lets an exception through to its caller. *)
Theorem navigation_failure_skips_capture (env : Env) (w : World)
    (url : string) (e : exn) :
  (raised (Goto url) e ∈ entries_of (run_verification env) w →
     (∀ p o, (Screenshot p, o) ∉ entries_of (run_verification env) w) ∧
     w_files (world_after (run_verification env) w) = w_files w ∧
     stdout_of (entries_of (run_verification env) w) =
       [ "Navigating to http://localhost:8000"; "Error: " +:+ exn_msg e ] ∧
     (returned BrowserClose ∈ entries_of (run_verification env) w →
      returned PlaywrightExit ∈ entries_of (run_verification env) w →
      result_of (run_verification env) w = Returned ())) ∧
  (raised (Goto url) e ∈ entries_of (run env) w →
     (∀ p o, (Screenshot p, o) ∉ entries_of (run env) w) ∧
     w_files (world_after (run env) w) = w_files w ∧
     stdout_of (entries_of (run env) w) = [] ∧
     propagates (result_of (run env) w)).
Proof.
  split.
  - wp_start (run_verification env) w.
    wp_run_frame; log_norm; intros Hin; elem_cases Hin.
    all: injection Hin as -> ->.
    all: split; [intros p o' Hin'; elem_cases Hin'|].
    all: split; [reflexivity|]; split; [reflexivity|].
    all: intros Hc Hx; elem_cases Hc; elem_cases Hx; reflexivity.
  - wp_start (run env) w.
    wp_run_frame; log_norm; intros Hin; elem_cases Hin.
    all: injection Hin as -> ->.
    all: split; [intros p o' Hin'; elem_cases Hin'|].
    all: split; [reflexivity|]; split; [reflexivity|]; eexists; reflexivity.
Qed.

(** C4 at work: with the server down, [run_verification] takes no
    screenshot and leaves the files alone. *)
Lemma navigation_failure_skips_capture_witness :
  (∀ p o, (Screenshot p, o) ∉ entries_of (run_verification server_down) empty_world) ∧
  w_files (world_after (run_verification server_down) empty_world)
    = w_files empty_world ∧
  stdout_of (entries_of (run_verification server_down) empty_world) =
    [ "Navigating to http://localhost:8000";
      "Error: " +:+ exn_msg connection_refused ] ∧
  (returned BrowserClose ∈ entries_of (run_verification server_down) empty_world →
   returned PlaywrightExit ∈ entries_of (run_verification server_down) empty_world →
   result_of (run_verification server_down) empty_world = Returned ()).
Proof.
  destruct (navigation_failure_skips_capture server_down empty_world
              "http://localhost:8000" connection_refused) as [Hrv _].
  apply Hrv. vm_compute. elem_find.
Defined.

(** ** C5: writing the screenshot *)

(** C5.  Whenever the capture returns, the image the browser rendered at
    that moment is the content of the file at the script's output path when
    the run ends, and every directory above the output path is on disk.  In
    [run_verification] the directory of the output path is the one
    [os.makedirs] was asked for, and that call has returned before the
    capture begins, leaving the directory on disk; in [run] the directories
    come with the write itself. *)
Theorem screenshot_written_to_output_path (env : Env) (w : World) :
  (∀ l1 p l2,
     entries_of (run_verification env) w = l1 ++ returned (Screenshot p) :: l2 →
     p = screenshot_path ∧
     returned (OsMakedirs (parent_dir p) true) ∈ l1 ∧
     w_files (world_after (run_verification env) w) !! p
       = Some (capture env (w_log w ++ l1)) ∧
     (∀ d, d ∈ parent_dirs p → d ∈ w_dirs (world_after (run_verification env) w))) ∧
  (∀ l1 p l2,
     entries_of (run env) w = l1 ++ returned (Screenshot p) :: l2 →
     p = refactor_screenshot_path ∧
     w_files (world_after (run env) w) !! p = Some (capture env (w_log w ++ l1)) ∧
     (∀ d, d ∈ parent_dirs p → d ∈ w_dirs (world_after (run env) w))) ∧
  (∀ w0,
     result_of (os_makedirs env (parent_dir screenshot_path) true) w0 = Returned () →
     parent_dir screenshot_path
       ∈ w_dirs (world_after (os_makedirs env (parent_dir screenshot_path) true) w0)).
Proof.
  split; [|split].
  - wp_start (run_verification env) w.
    wp_run; log_norm; intros l1 p l2 Hsplit; split_cases Hsplit.
    all: injection Hsplit as <-.
    all: split; [reflexivity|split; [elem_find|split]].
    all: first [ apply lookup_insert_eq
               | intros d Hd; apply elem_of_union_l, elem_of_list_to_set, Hd ].
  - wp_start (run env) w.
    wp_run; log_norm; intros l1 p l2 Hsplit; split_cases Hsplit.
    all: injection Hsplit as <-.
    all: split; [reflexivity|split].
    all: first [ apply lookup_insert_eq
               | intros d Hd; apply elem_of_union_l, elem_of_list_to_set, Hd ].
  - intros w0. rewrite parent_dir_screenshot_path.
    wp_start (os_makedirs env verification_dir true) w0.
    wp_run; log_norm; intros Hret; try discriminate Hret.
    + assumption.
    + apply verification_dir_created.
Qed.

(** C5 at work: when everything is up, both scripts leave the rendered
    image at their output path. *)
Lemma screenshot_written_to_output_path_witness :
  w_files (world_after (run_verification all_up) empty_world) !! screenshot_path
    = Some png_image ∧
  w_files (world_after (run all_up) empty_world) !! refactor_screenshot_path
    = Some png_image.
Proof.
  destruct (screenshot_written_to_output_path all_up empty_world)
    as (Hrv & Hrun & _).
  split.
  - eapply (Hrv [_; _; _; _; _; _; _; _; _; _; _; _; _; _] screenshot_path [_; _; _]).
    vm_compute. reflexivity.
  - eapply (Hrun [_; _; _; _; _] refactor_screenshot_path [_; _]).
    vm_compute. reflexivity.
Defined.

(** ** C6: running twice *)

(** Two runs that receive the same answers behave alike, whatever the worlds
    they start in: a run reads nothing from the world but the answers of its
    own calls. *)

Lemma sim_ret {A} b1 b2 (a : A) : sim b1 b2 (mret a) (mret a).
Proof. intros w1 w2 Hs. split; [reflexivity | exact Hs]. Qed.

Lemma sim_bind {A B} b1 b2 (m1 m2 : M A) (k1 k2 : A → M B) :
  sim b1 b2 m1 m2 → (∀ a, sim b1 b2 (k1 a) (k2 a)) →
  sim b1 b2 (m1 ≫= k1) (m2 ≫= k2).
Proof.
  intros Hm Hk w1 w2 Hs. unfold mbind, M_bind.
  destruct (Hm w1 w2 Hs) as [Hr Hs'].
  destruct (m1 w1) as [[a1|e1] w1'], (m2 w2) as [[a2|e2] w2'];
    simpl in *; try discriminate Hr; injection Hr as <-.
  - apply Hk, Hs'.
  - split; [reflexivity | exact Hs'].
Qed.


Lemma sim_try_finally {A} b1 b2 (m1 m2 : M A) (f1 f2 : M unit) :
  sim b1 b2 m1 m2 → sim b1 b2 f1 f2 →
  sim b1 b2 (try_finally m1 f1) (try_finally m2 f2).
Proof.
  intros Hm Hf w1 w2 Hs. unfold try_finally.
  destruct (Hm w1 w2 Hs) as [Hr Hs'].
  destruct (m1 w1) as [r1 w1'], (m2 w2) as [r2 w2']; simpl in *; subst r2.
  destruct (Hf w1' w2' Hs') as [Hrf Hsf].
  destruct (f1 w1') as [[[]|e1] w1''], (f2 w2') as [[[]|e2] w2''];
    simpl in *; try discriminate Hrf; try injection Hrf as <-;
    (split; [reflexivity | exact Hsf]).
Qed.

Lemma same_since_log_entry b1 b2 en w1 w2 :
  same_since b1 b2 w1 w2 →
  same_since b1 b2 (log_entry en w1) (log_entry en w2).
Proof.
  intros (l & H1 & H2). exists (l ++ [en]). cbn.
  rewrite H1, H2, !app_assoc. done.
Qed.


Section Sim.
Variables env1 env2 : Env.
Variables b1 b2 : list entry.
Hypothesis Halike : answers_alike env1 env2 b1 b2.

Lemma same_since_fault c w1 w2 :
  same_since b1 b2 w1 w2 → fault env1 (w_log w1) c = fault env2 (w_log w2) c.
Proof. intros (l & -> & ->). apply Halike. Qed.

Lemma sim_perform c (eff1 eff2 : World → World) :
  (∀ w, w_log (eff1 w) = w_log w) → (∀ w, w_log (eff2 w) = w_log w) →
  sim b1 b2 (perform env1 c eff1) (perform env2 c eff2).
Proof.
  intros He1 He2 w1 w2 Hs. unfold perform.
  rewrite <- (same_since_fault c w1 w2 Hs).
  destruct (fault env1 (w_log w1) c) as [e|]; simpl.
  - split; [reflexivity|]. by apply same_since_log_entry.
  - split; [reflexivity|]. apply same_since_log_entry.
    destruct Hs as (l & H1 & H2). exists l. by rewrite He1, He2.
Qed.


Lemma sim_screenshot pg p :
  sim b1 b2 (screenshot env1 pg p) (screenshot env2 pg p).
Proof.
  intros w1 w2 Hs. unfold screenshot. apply sim_perform; done.
Qed.

End Sim.






(** ** C7: the exit status *)

Lemma python_main_status (m : M unit) (w : World) :
  exit_status (python_main m w) =
    match result_of m w with Returned _ => 0 | Raised _ => 1 end.
Proof.
  unfold python_main, result_of. destruct (m w) as [[?|?] ?]; reflexivity.
Qed.

Lemma python_main_traceback (m : M unit) (w : World) :
  exit_traceback (python_main m w) =
    match result_of m w with
    | Returned _ => None
    | Raised e => Some (exn_class e +:+ ": " +:+ exn_msg e)
    end.
Proof.
  unfold python_main, result_of. destruct (m w) as [[?|?] ?]; reflexivity.
Qed.

(** C7, the claim as stated fails: on the very same failure, a server that
    is down, [verification_script.py] prints the error and exits with
    status 0, while [verify_refactor.py] dies with a traceback and status 1.
    The two scripts do not share one failure convention. *)
Lemma exit_conventions_differ_counterexample :
  exit_status (verification_script_main server_down empty_world) = 0 ∧
  exit_traceback (verification_script_main server_down empty_world) = None ∧
  exit_status (verify_refactor_main server_down empty_world) = 1 ∧
  exit_traceback (verify_refactor_main server_down empty_world) =
    Some "Error: net::ERR_CONNECTION_REFUSED at http://localhost:8000/".
Proof. vm_compute. done. Qed.

(** C7, amended.  Each script exits with status 0 and without a traceback
    when none of its calls raises.  On failure the scripts differ.
    [verification_script.py] exits with status 0 after printing
    ["Error: "] and the message when a step of its [try] block raised and
    the browser and Playwright were then shut down; it exits with status 1
    and a traceback when any other call raised.  [verify_refactor.py] exits
    with status 1 and a traceback, printing nothing, whenever a call
    raised. *)
Theorem exit_status_conventions (env : Env) (w : World) :
  ((∀ c e, raised c e ∉ entries_of (run_verification env) w) →
     exit_status (verification_script_main env w) = 0 ∧
     exit_traceback (verification_script_main env w) = None) ∧
  ((∀ c e, raised c e ∉ entries_of (run env) w) →
     exit_status (verify_refactor_main env w) = 0 ∧
     exit_traceback (verify_refactor_main env w) = None) ∧
  (∀ c e, is_step c = true →
     raised c e ∈ entries_of (run_verification env) w →
     returned BrowserClose ∈ entries_of (run_verification env) w →
     returned PlaywrightExit ∈ entries_of (run_verification env) w →
     exit_status (verification_script_main env w) = 0 ∧
     exit_traceback (verification_script_main env w) = None ∧
     ("Error: " +:+ exn_msg e) ∈ stdout_of (entries_of (run_verification env) w)) ∧
  (∀ c e, is_step c = false →
     raised c e ∈ entries_of (run_verification env) w →
     exit_status (verification_script_main env w) = 1 ∧
     is_Some (exit_traceback (verification_script_main env w))) ∧
  (∀ c e, raised c e ∈ entries_of (run env) w →
     exit_status (verify_refactor_main env w) = 1 ∧
     is_Some (exit_traceback (verify_refactor_main env w)) ∧
     stdout_of (entries_of (run env) w) = []).
Proof.
  unfold verification_script_main, verify_refactor_main.
  rewrite !python_main_status, !python_main_traceback.
  split; [|split; [|split; [|split]]].
  - wp_start (run_verification env) w.
    wp_run_frame; log_norm; intros Hnone.
    all: try (split; reflexivity).
    all: exfalso;
         match goal with
         | e : exn |- _ => solve [eapply (Hnone _ e); elem_find]
         end.
  - wp_start (run env) w.
    wp_run_frame; log_norm; intros Hnone.
    all: try (split; reflexivity).
    all: exfalso;
         match goal with
         | e : exn |- _ => solve [eapply (Hnone _ e); elem_find]
         end.
  - wp_start (run_verification env) w.
    wp_run_frame; log_norm.
    all: intros c e' Hstep Hin Hc Hx; elem_cases Hin.
    all: injection Hin as -> ->; try discriminate Hstep.
    all: elem_cases Hc; elem_cases Hx.
    all: split; [reflexivity|split; [reflexivity|]].
    all: unfold returned, raised; cbn [stdout_of]; elem_find.
  - wp_start (run_verification env) w.
    wp_run_frame; log_norm.
    all: intros c e' Hstep Hin; elem_cases Hin.
    all: injection Hin as -> ->; try discriminate Hstep.
    all: split; [reflexivity|eexists; reflexivity].
  - wp_start (run env) w.
    wp_run_frame; log_norm.
    all: intros c e' Hin; elem_cases Hin.
    all: split; [reflexivity|split; [eexists; reflexivity|reflexivity]].
Qed.

(** C7 at work: with the server down, [verification_script.py] logs the
    error and exits with status 0. *)
Lemma exit_status_conventions_witness :
  exit_status (verification_script_main server_down empty_world) = 0 ∧
  exit_traceback (verification_script_main server_down empty_world) = None ∧
  ("Error: " +:+ exn_msg connection_refused)
    ∈ stdout_of (entries_of (run_verification server_down) empty_world).
Proof.
  destruct (exit_status_conventions server_down empty_world)
    as (_ & _ & Hcaught & _).
  apply (Hcaught (Goto "http://localhost:8000")); [reflexivity|..].
  all: vm_compute; elem_find.
Defined.

(** ** C8: the viewport *)

(** C8.  [run_verification] supplies the viewport 1280x720.  Whenever the
    run reaches the navigation to the target URL, the page has been opened
    and [set_viewport_size] has returned on it before: in the log, every
    [goto] call has the returned [new_page] and the returned
    [set_viewport_size(1280, 720)] in front of it, and no earlier [goto]. *)
Theorem viewport_set_before_navigation (env : Env) (w : World)
    (l1 l2 : list entry) (url : string) (o : option exn) :
  entries_of (run_verification env) w = l1 ++ (Goto url, o) :: l2 →
  (∃ l0 l0',
     l1 = l0 ++ returned NewPage :: returned (SetViewportSize 1280 720) :: l0') ∧
  (∀ u o', (Goto u, o') ∉ l1).
Proof.
  revert l1 l2. wp_start (run_verification env) w.
  wp_run_frame; log_norm; intros l1 l2 Hsplit; split_cases Hsplit.
  all: split; [eexists [_; _; _], _; reflexivity|].
  all: intros u o' Hin; elem_cases Hin.
Qed.

(** C8 at work: the calls in front of the navigation when the server is
    down. *)
Lemma viewport_set_before_navigation_witness :
  (∃ l0 l0',
     [ returned (OsMakedirs verification_dir true); returned PlaywrightEnter;
       returned (ChromiumLaunch (Some true)); returned NewPage;
       returned (SetViewportSize 1280 720);
       returned (PrintLine "Navigating to http://localhost:8000") ]
     = l0 ++ returned NewPage :: returned (SetViewportSize 1280 720) :: l0') ∧
  (∀ u o',
     (Goto u, o') ∉
     [ returned (OsMakedirs verification_dir true); returned PlaywrightEnter;
       returned (ChromiumLaunch (Some true)); returned NewPage;
       returned (SetViewportSize 1280 720);
       returned (PrintLine "Navigating to http://localhost:8000") ]).
Proof.
  eapply (viewport_set_before_navigation server_down empty_world _ _
            "http://localhost:8000" (Some connection_refused)).
  vm_compute. reflexivity.
Defined.

(** ** C9: a run without pointer interaction *)

(** C9.  [run] has no interaction points: it never moves the pointer,
    whatever the environment does.  It still captures: when none of its
    calls raises, the run consists of navigation, selector wait and capture
    between opening and closing the browser, it returns normally, and the
    image rendered at the capture is the content of the output file. *)
Theorem run_without_interaction (env : Env) (w : World) :
  (∀ x y o, (MouseMove x y, o) ∉ entries_of (run env) w) ∧
  ((∀ c e, raised c e ∉ entries_of (run env) w) →
     result_of (run env) w = Returned () ∧
     entries_of (run env) w =
       [ returned PlaywrightEnter; returned (ChromiumLaunch None); returned NewPage;
         returned (Goto "http://localhost:8000");
         returned (WaitForSelector "#particles-js canvas");
         returned (Screenshot refactor_screenshot_path);
         returned BrowserClose; returned PlaywrightExit ] ∧
     w_files (world_after (run env) w) !! refactor_screenshot_path =
       Some (capture env
               (w_log w ++
                [ returned PlaywrightEnter; returned (ChromiumLaunch None);
                  returned NewPage; returned (Goto "http://localhost:8000");
                  returned (WaitForSelector "#particles-js canvas") ]))).
Proof.
  split.
  - wp_start (run env) w.
    wp_run; log_norm; intros x y o Hin; elem_cases Hin.
  - wp_start (run env) w.
    wp_run; log_norm; intros Hnone.
    all: try (split; [reflexivity|split; [reflexivity|apply lookup_insert_eq]]).
    all: exfalso;
         match goal with
         | e : exn |- _ => solve [eapply (Hnone _ e); elem_find]
         end.
Qed.

(** C9 at work: [run] succeeds when everything is up. *)
Lemma run_without_interaction_witness :
  result_of (run all_up) empty_world = Returned () ∧
  w_files (world_after (run all_up) empty_world) !! refactor_screenshot_path =
    Some png_image.
Proof.
  destruct (run_without_interaction all_up empty_world) as [_ Hok].
  destruct Hok as (Hres & _ & Hfile).
  - intros c e Hin. vm_compute in Hin. elem_cases Hin.
  - split; [exact Hres | exact Hfile].
Defined.

(** ** C10: the verification directory *)

(** C10, the claim as stated fails: when the home directory is not
    writable, [os.makedirs] raises, the run ends there, and the directory
    has not been created. *)
Lemma makedirs_denied_counterexample :
  entries_of (run_verification makedirs_denied) empty_world
    = [raised (OsMakedirs verification_dir true) permission_denied] ∧
  result_of (run_verification makedirs_denied) empty_world = Raised permission_denied ∧
  verification_dir ∉ w_dirs (world_after (run_verification makedirs_denied) empty_world).
Proof.
  split; [|split].
  - vm_compute. reflexivity.
  - vm_compute. reflexivity.
  - change (w_dirs (world_after (run_verification makedirs_denied) empty_world))
      with (∅ : gset string).
    apply not_elem_of_empty.
Qed.

(** C10, amended.  Every invocation of [run_verification] begins with
    [os.makedirs("/home/jules/verification", exist_ok=True)]: it is the
    first call of the run, and a launch is only ever attempted after it has
    returned.  Because of [exist_ok] it raises only when the environment
    makes it raise, never because the directory is already there.  When it
    returns, the directory is on disk when the run ends, whatever happens
    afterwards (a failing navigation, selector wait or capture included).
    When it raises, the run consists of that call alone: the exception
    leaves the function and the disk is as it was. *)
Theorem run_verification_makedirs_first (env : Env) (w : World) :
  let c := OsMakedirs verification_dir true in
  (∃ rest,
     entries_of (run_verification env) w = (c, fault env (w_log w) c) :: rest ∧
     (∀ h o, (ChromiumLaunch h, o) ∈ rest → fault env (w_log w) c = None)) ∧
  (fault env (w_log w) c = None →
     verification_dir ∈ w_dirs (world_after (run_verification env) w)) ∧
  (∀ e, fault env (w_log w) c = Some e →
     entries_of (run_verification env) w = [raised c e] ∧
     result_of (run_verification env) w = Raised e ∧
     w_dirs (world_after (run_verification env) w) = w_dirs w ∧
     w_files (world_after (run_verification env) w) = w_files w).
Proof.
  intros c. subst c. wp_start (run_verification env) w.
  wp_run; log_norm.
  all: match goal with
       | H : fault _ _ (OsMakedirs _ _) = _ |- _ => rewrite H
       end.
  all: split; [eexists; split; [reflexivity|intros h o Hin; elem_cases Hin; done]|].
  all: split; [|intros e' He'; try discriminate He'; injection He' as <-; done].
  all: intros; try discriminate.
  all: rewrite ?parent_dirs_screenshot_path;
       auto using verification_dir_created; set_solver.
Qed.

(** C10 at work: with the server down the run fails at the navigation, and
    the directory is there all the same. *)
Lemma run_verification_makedirs_first_witness :
  verification_dir ∈ w_dirs (world_after (run_verification server_down) empty_world).
Proof.
  destruct (run_verification_makedirs_first server_down empty_world)
    as (_ & Hdir & _).
  apply Hdir. reflexivity.
Defined.

(** * Further properties of the two scripts *)

(** ** What the [print] calls tell about a run of [run_verification] *)

(** Prepare a goal or hypothesis about the printed lines of an explicit
    log. *)
Ltac stdout_norm := unfold returned, raised in *; cbn [stdout_of] in *.

(** X1.  [run_verification] prints ["Screenshot saved to ..."] exactly when
    the capture has returned, and then the file at the screenshot path holds
    the image rendered at the capture. *)
Theorem saved_line_iff_captured (env : Env) (w : World) :
  (saved_line ∈ stdout_of (entries_of (run_verification env) w) ↔
   returned (Screenshot screenshot_path) ∈ entries_of (run_verification env) w) ∧
  (saved_line ∈ stdout_of (entries_of (run_verification env) w) →
   ∃ l1 l2,
     entries_of (run_verification env) w
       = l1 ++ returned (Screenshot screenshot_path) :: l2 ∧
     w_files (world_after (run_verification env) w) !! screenshot_path
       = Some (capture env (w_log w ++ l1))).
Proof.
  split.
  - wp_start (run_verification env) w.
    wp_run_frame; log_norm; (split; intros Hin).
    all: stdout_norm; elem_cases Hin; try (vm_compute in Hin; discriminate Hin).
    all: elem_find.
  - wp_start (run_verification env) w.
    wp_run_frame; log_norm; intros Hin.
    all: stdout_norm; elem_cases Hin; try (vm_compute in Hin; discriminate Hin).
    all: eexists [_; _; _; _; _; _; _; _; _; _; _; _; _; _], _.
    all: split; [reflexivity | apply lookup_insert_eq].
Qed.

Lemma saved_line_iff_captured_witness :
  ∃ l1 l2,
    entries_of (run_verification all_up) empty_world
      = l1 ++ returned (Screenshot screenshot_path) :: l2 ∧
    w_files (world_after (run_verification all_up) empty_world) !! screenshot_path
      = Some (capture all_up (w_log empty_world ++ l1)).
Proof.
  destruct (saved_line_iff_captured all_up empty_world) as [_ Hfile].
  apply Hfile. vm_compute. elem_find.
Defined.

(** X2.  [run_verification] makes no [print] call before its [try] block
    is entered.  Once it is entered, the last [print] call of the run gives
    the verdict: its text is either ["Screenshot saved to ..."] or starts
    with ["Error: "]; and the text of no earlier [print] call is either. *)
Theorem one_verdict_line (env : Env) (w : World) :
  (returned (SetViewportSize 1280 720) ∉ entries_of (run_verification env) w →
     stdout_of (entries_of (run_verification env) w) = []) ∧
  (returned (SetViewportSize 1280 720) ∈ entries_of (run_verification env) w →
     ∃ front verdict,
       stdout_of (entries_of (run_verification env) w) = front ++ [verdict] ∧
       (verdict = saved_line ∨ is_error_line verdict = true) ∧
       (∀ s, s ∈ front → s ≠ saved_line ∧ is_error_line s = false)).
Proof.
  split.
  - wp_start (run_verification env) w.
    wp_run_frame; log_norm; intros Hnot; try reflexivity.
    all: exfalso; apply Hnot; elem_find.
  - wp_start (run_verification env) w.
    wp_run_frame; log_norm; intros Hin; elem_cases Hin.
    all: stdout_norm.
    all: first [ eexists [_; _], _; split; [reflexivity|]
               | eexists [_], _; split; [reflexivity|] ].
    all: split; [first [left; reflexivity | right; vm_compute; reflexivity]|].
    all: intros s Hs; elem_cases Hs; subst s.
    all: split; [discriminate | vm_compute; reflexivity].
Qed.

Lemma one_verdict_line_witness :
  ∃ front verdict,
    stdout_of (entries_of (run_verification no_canvas) empty_world)
      = front ++ [verdict] ∧
    (verdict = saved_line ∨ is_error_line verdict = true) ∧
    (∀ s, s ∈ front → s ≠ saved_line ∧ is_error_line s = false).
Proof.
  destruct (one_verdict_line no_canvas empty_world) as [_ Hverdict].
  apply Hverdict. vm_compute. elem_find.
Defined.

(** X3.  [run_verification] raises exactly when a call outside the steps of
    its [try] block raised: a normal return means that every call that
    raised was a step, whose error was caught, and that the browser was
    closed and Playwright left. *)
Theorem run_verification_returns_iff (env : Env) (w : World) :
  (result_of (run_verification env) w = Returned () ↔
   ∀ c e, raised c e ∈ entries_of (run_verification env) w → is_step c = true) ∧
  (result_of (run_verification env) w = Returned () →
   returned BrowserClose ∈ entries_of (run_verification env) w ∧
   returned PlaywrightExit ∈ entries_of (run_verification env) w).
Proof.
  split.
  - wp_start (run_verification env) w.
    wp_run_frame; log_norm; (split; [intros Hret c e' Hin | intros Hsteps]).
    all: try discriminate Hret; try reflexivity.
    all: try (elem_cases Hin; injection Hin as -> ->; reflexivity).
    all: exfalso;
         match goal with
         | e : exn |- _ =>
             solve [ specialize (Hsteps _ e ltac:(elem_find)); discriminate Hsteps ]
         end.
  - wp_start (run_verification env) w.
    wp_run_frame; log_norm; intros Hret; try discriminate Hret.
    all: split; elem_find.
Qed.

Lemma run_verification_returns_iff_witness :
  returned BrowserClose ∈ entries_of (run_verification no_canvas) empty_world ∧
  returned PlaywrightExit ∈ entries_of (run_verification no_canvas) empty_world.
Proof.
  destruct (run_verification_returns_iff no_canvas empty_world) as [_ Hclosed].
  apply Hclosed. vm_compute. reflexivity.
Defined.

(** ** What a normal return of [run] means *)

(** X4.  [run] hides no error: when it returns normally none of its calls
    has raised, the capture has returned, and the output file holds the
    image rendered at the capture. *)
Theorem run_returns_only_on_success (env : Env) (w : World) :
  result_of (run env) w = Returned () →
  (∀ c e, raised c e ∉ entries_of (run env) w) ∧
  ∃ l1 l2,
    entries_of (run env) w
      = l1 ++ returned (Screenshot refactor_screenshot_path) :: l2 ∧
    w_files (world_after (run env) w) !! refactor_screenshot_path
      = Some (capture env (w_log w ++ l1)).
Proof.
  wp_start (run env) w.
  wp_run_frame; log_norm; intros Hret; try discriminate Hret.
  split.
  - intros c e Hin. elem_cases Hin.
  - eexists [_; _; _; _; _], _. split; [reflexivity | apply lookup_insert_eq].
Qed.

Lemma run_returns_only_on_success_witness :
  (∀ c e, raised c e ∉ entries_of (run all_up) empty_world) ∧
  ∃ l1 l2,
    entries_of (run all_up) empty_world
      = l1 ++ returned (Screenshot refactor_screenshot_path) :: l2 ∧
    w_files (world_after (run all_up) empty_world) !! refactor_screenshot_path
      = Some (capture all_up (w_log empty_world ++ l1)).
Proof.
  apply (run_returns_only_on_success all_up empty_world).
  vm_compute. reflexivity.
Defined.

(** ** What the scripts leave alone on disk *)

Lemma parent_dirs_refactor_screenshot_path :
  parent_dirs refactor_screenshot_path
    = ["jules-scratch"; "jules-scratch/verification"].
Proof. reflexivity. Qed.

Lemma subseteq_union_r1 (P D : gset string) : D ⊆ P ∪ D.
Proof. set_solver. Qed.

Lemma subseteq_union_r2 (P Q D : gset string) : D ⊆ P ∪ (Q ∪ D).
Proof. set_solver. Qed.

(** X5.  Neither script removes anything or touches a file other than its
    own screenshot: after a run every other path has the file it had
    before, a file that was at the screenshot path is still a file, every
    directory that existed still exists, and a directory that is new lies on
    the way to the screenshot. *)
Theorem disk_frame (env : Env) (w : World) :
  ((∀ p, p ≠ screenshot_path →
      w_files (world_after (run_verification env) w) !! p = w_files w !! p) ∧
   (is_Some (w_files w !! screenshot_path) →
      is_Some (w_files (world_after (run_verification env) w) !! screenshot_path)) ∧
   w_dirs w ⊆ w_dirs (world_after (run_verification env) w) ∧
   (∀ d, d ∈ w_dirs (world_after (run_verification env) w) →
      d ∈ w_dirs w ∨ d ∈ parent_dirs screenshot_path)) ∧
  ((∀ p, p ≠ refactor_screenshot_path →
      w_files (world_after (run env) w) !! p = w_files w !! p) ∧
   (is_Some (w_files w !! refactor_screenshot_path) →
      is_Some (w_files (world_after (run env) w) !! refactor_screenshot_path)) ∧
   w_dirs w ⊆ w_dirs (world_after (run env) w) ∧
   (∀ d, d ∈ w_dirs (world_after (run env) w) →
      d ∈ w_dirs w ∨ d ∈ parent_dirs refactor_screenshot_path)).
Proof.
  split.
  - wp_start (run_verification env) w.
    wp_run; log_norm; rewrite ?parent_dirs_screenshot_path.
    all: split; [intros p Hp; by rewrite ?lookup_insert_ne|].
    all: split; [intros Hsome; rewrite ?lookup_insert_eq; eauto|].
    all: split; [first [ done | apply subseteq_union_r1 | apply subseteq_union_r2 ]|].
    all: intros d; rewrite ?elem_of_union, ?elem_of_list_to_set; tauto.
  - wp_start (run env) w.
    wp_run; log_norm.
    all: split; [intros p Hp; by rewrite ?lookup_insert_ne|].
    all: split; [intros Hsome; rewrite ?lookup_insert_eq; eauto|].
    all: split; [first [ done | apply subseteq_union_r1 | apply subseteq_union_r2 ]|].
    all: intros d; rewrite ?elem_of_union, ?elem_of_list_to_set; tauto.
Qed.

(** ** Sleeping *)

(** X6.  [run_verification] captures only after it has slept for four
    seconds in all (two to let the animation start, one after each pointer
    move), and does not sleep after the capture; [run] never sleeps. *)
Theorem slept_before_capture (env : Env) (w : World) :
  (∀ l1 p o l2,
     entries_of (run_verification env) w = l1 ++ (Screenshot p, o) :: l2 →
     slept l1 = 4 ∧ slept l2 = 0) ∧
  slept (entries_of (run env) w) = 0.
Proof.
  split.
  - wp_start (run_verification env) w.
    wp_run_frame; log_norm; intros l1 p o l2 Hsplit; split_cases Hsplit.
    all: split; reflexivity.
  - wp_start (run env) w.
    wp_run_frame; log_norm; reflexivity.
Qed.

(** ** One browser, one page *)

(** X7.  In every run of either script at most one browser is launched, at
    most one page is opened and [browser.close()] is called at most once;
    and whenever [browser.close()] is called, the launch and the opening of
    the page have returned before it. *)
Theorem one_browser_one_page (env : Env) (w : World) :
  ((count_calls is_launch (entries_of (run_verification env) w) ≤ 1)%nat ∧
   (count_calls is_new_page (entries_of (run_verification env) w) ≤ 1)%nat ∧
   (count_calls is_close (entries_of (run_verification env) w) ≤ 1)%nat ∧
   (∀ l1 o l2,
      entries_of (run_verification env) w = l1 ++ (BrowserClose, o) :: l2 →
      returned (ChromiumLaunch (Some true)) ∈ l1 ∧ returned NewPage ∈ l1)) ∧
  ((count_calls is_launch (entries_of (run env) w) ≤ 1)%nat ∧
   (count_calls is_new_page (entries_of (run env) w) ≤ 1)%nat ∧
   (count_calls is_close (entries_of (run env) w) ≤ 1)%nat ∧
   (∀ l1 o l2,
      entries_of (run env) w = l1 ++ (BrowserClose, o) :: l2 →
      returned (ChromiumLaunch None) ∈ l1 ∧ returned NewPage ∈ l1)).
Proof.
  split.
  - wp_start (run_verification env) w.
    wp_run_frame; log_norm.
    all: split; [cbv; lia|split; [cbv; lia|split; [cbv; lia|]]].
    all: intros l1 o l2 Hsplit; split_cases Hsplit; split; elem_find.
  - wp_start (run env) w.
    wp_run_frame; log_norm.
    all: split; [cbv; lia|split; [cbv; lia|split; [cbv; lia|]]].
    all: intros l1 o l2 Hsplit; split_cases Hsplit; split; elem_find.
Qed.

(** ** Running [run] twice *)

Lemma sim_run env1 env2 b1 b2 :
  answers_alike env1 env2 b1 b2 → sim b1 b2 (run env1) (run env2).
Proof.
  intros Halike.
  unfold run, with_as, sync_playwright_enter, sync_playwright_exit,
    chromium_launch, new_page, goto, wait_for_selector, browser_close.
  repeat first
    [ apply sim_screenshot; exact Halike
    | apply sim_ret
    | apply sim_perform; [exact Halike | done | done]
    | apply sim_try_finally
    | apply sim_bind; [|intros ?] ].
Qed.

Lemma run_answers env1 env2 w1 w2 :
  answers_alike env1 env2 (w_log w1) (w_log w2) →
  entries_of (run env1) w1 = entries_of (run env2) w2 ∧
  result_of (run env1) w1 = result_of (run env2) w2.
Proof.
  intros Halike.
  destruct (sim_run env1 env2 _ _ Halike w1 w2) as [Hr (l & H1 & H2)].
  { exists []. by rewrite !app_nil_r. }
  unfold entries_of, result_of, world_after.
  rewrite H1, H2, !drop_app_length. done.
Qed.

(** What one run of [run] does to the disk. *)
Lemma run_disk env w :
  let shot := returned (Screenshot refactor_screenshot_path) in
  (∀ l1 l2,
     entries_of (run env) w = l1 ++ shot :: l2 →
     w_files (world_after (run env) w)
       = <[refactor_screenshot_path := capture env (w_log w ++ l1)]> (w_files w) ∧
     w_dirs (world_after (run env) w)
       = list_to_set (parent_dirs refactor_screenshot_path) ∪ w_dirs w) ∧
  (shot ∉ entries_of (run env) w →
     w_files (world_after (run env) w) = w_files w ∧
     w_dirs (world_after (run env) w) = w_dirs w).
Proof.
  intros shot. subst shot. split.
  - wp_start (run env) w.
    wp_run; log_norm; intros l1 l2 Hsplit; split_cases Hsplit.
    all: split; reflexivity.
  - wp_start (run env) w.
    wp_run; log_norm; intros Hnot; try (split; reflexivity).
    all: exfalso; apply Hnot; elem_find.
Qed.

(** X8.  Run [run] twice in a row, the environment answering the second run
    as it answered the first.  Then the second run makes the same calls with
    the same outcomes and ends the same way, leaves the directories as the
    first run left them and every file other than the screenshot untouched;
    and when it captures, the screenshot file, which the first run had
    written, now holds the newly rendered image. *)
Theorem run_twice (env : Env) (w0 : World) :
  let w1 := world_after (run env) w0 in
  let w2 := world_after (run env) w1 in
  answers_alike env env (w_log w1) (w_log w0) →
  entries_of (run env) w1 = entries_of (run env) w0 ∧
  result_of (run env) w1 = result_of (run env) w0 ∧
  w_dirs w2 = w_dirs w1 ∧
  (∀ p, p ≠ refactor_screenshot_path → w_files w2 !! p = w_files w1 !! p) ∧
  (∀ l1 l2,
     entries_of (run env) w1
       = l1 ++ returned (Screenshot refactor_screenshot_path) :: l2 →
     is_Some (w_files w1 !! refactor_screenshot_path) ∧
     w_files w2
       = <[refactor_screenshot_path := capture env (w_log w1 ++ l1)]> (w_files w1)).
Proof.
  intros w1 w2 Halike.
  destruct (run_answers env env w1 w0 Halike) as [HE Hr].
  destruct (run_disk env w0) as [Hshot0 Hnone0].
  destruct (run_disk env w1) as [Hshot1 Hnone1].
  fold w1 in Hshot0, Hnone0. fold w2 in Hshot1, Hnone1.
  split; [exact HE|]. split; [exact Hr|].
  destruct (decide (returned (Screenshot refactor_screenshot_path)
                      ∈ entries_of (run env) w0)) as [Hin|Hnot].
  - destruct (list_elem_of_split _ _ Hin) as (l0 & l0' & Hsplit0).
    destruct (Hshot0 l0 l0' Hsplit0) as [Hf0 Hd0].
    rewrite <- HE in Hin.
    destruct (list_elem_of_split _ _ Hin) as (l1' & l2' & Hsplit1).
    destruct (Hshot1 l1' l2' Hsplit1) as [Hf1 Hd1].
    split; [|split].
    + rewrite Hd1, Hd0. by rewrite (assoc_L (∪)), (idemp_L (∪)).
    + intros p Hp. rewrite Hf1. by rewrite lookup_insert_ne.
    + intros l1 l2 Hsplit. split.
      * rewrite Hf0, lookup_insert_eq. eauto.
      * apply (Hshot1 l1 l2 Hsplit).
  - rewrite <- HE in Hnot. destruct (Hnone1 Hnot) as [Hf1 Hd1].
    split; [exact Hd1|]. split.
    + intros p Hp. by rewrite Hf1.
    + intros l1 l2 Hsplit. exfalso. apply Hnot. rewrite Hsplit.
      apply elem_of_app. right. apply list_elem_of_here.
Qed.

Lemma run_twice_witness :
  let w1 := world_after (run all_up) empty_world in
  let w2 := world_after (run all_up) w1 in
  entries_of (run all_up) w1 = entries_of (run all_up) empty_world ∧
  result_of (run all_up) w1 = result_of (run all_up) empty_world ∧
  w_dirs w2 = w_dirs w1 ∧
  (∀ p, p ≠ refactor_screenshot_path → w_files w2 !! p = w_files w1 !! p) ∧
  (∀ l1 l2,
     entries_of (run all_up) w1
       = l1 ++ returned (Screenshot refactor_screenshot_path) :: l2 →
     is_Some (w_files w1 !! refactor_screenshot_path) ∧
     w_files w2
       = <[refactor_screenshot_path := capture all_up (w_log w1 ++ l1)]> (w_files w1)).
Proof.
  apply (run_twice all_up empty_world).
  intros l c. reflexivity.
Defined.

(** ** What exit status 0 of [verify_refactor.py] means *)

Lemma python_main_world (m : M unit) (w : World) :
  exit_world (python_main m w) = world_after m w.
Proof.
  unfold python_main, world_after. destruct (m w) as [[?|?] ?]; reflexivity.
Qed.

(** X9.  When [verify_refactor.py] exits with status 0, its run has
    captured, and the output file holds the image rendered at the capture:
    the status alone tells that a fresh screenshot is on disk. *)
Theorem verify_refactor_exit_zero (env : Env) (w : World) :
  exit_status (verify_refactor_main env w) = 0 →
  exit_traceback (verify_refactor_main env w) = None ∧
  ∃ l1 l2,
    entries_of (run env) w
      = l1 ++ returned (Screenshot refactor_screenshot_path) :: l2 ∧
    w_files (exit_world (verify_refactor_main env w)) !! refactor_screenshot_path
      = Some (capture env (w_log w ++ l1)).
Proof.
  unfold verify_refactor_main.
  rewrite python_main_status, python_main_traceback, python_main_world.
  wp_start (run env) w.
  wp_run_frame; log_norm; intros Hzero; try discriminate Hzero.
  split; [reflexivity|].
  eexists [_; _; _; _; _], _. split; [reflexivity | apply lookup_insert_eq].
Qed.

Lemma verify_refactor_exit_zero_witness :
  exit_traceback (verify_refactor_main all_up empty_world) = None ∧
  ∃ l1 l2,
    entries_of (run all_up) empty_world
      = l1 ++ returned (Screenshot refactor_screenshot_path) :: l2 ∧
    w_files (exit_world (verify_refactor_main all_up empty_world))
      !! refactor_screenshot_path
      = Some (capture all_up (w_log empty_world ++ l1)).
Proof.
  apply (verify_refactor_exit_zero all_up empty_world).
  vm_compute. reflexivity.
Defined.
